(** * FX30 Grain Match: the grain-pattern synthesis core

    A shallow embedding of [GRAIN_PARAMETERS] and of the class
    [FX30GrainPattern] of [fx30-grain-match-plugin.py], and the properties
    the design document states about them.

    - Python floats are kept behind a small interface, [Scalar], with two
      instances: [binary64], IEEE double precision as Python computes it,
      and [exact], the rationals, which is how the design document reads
      the grids ("real values").  The program is written once, over the
      interface.
    - [numpy.random] is a library outside the plugin.  Its global
      [RandomState] is the state threaded through the monad [M]; what it
      accepts as a seed and as a shape follows its documentation, and the
      bit generator itself stays behind the interface [Generator].
    - Statements that compare magnitudes or divide are made in exact
      arithmetic; statements about what the program computes hold for
      every [Scalar], double precision included. *)

From Stdlib Require Import ZArith QArith Qabs Floats Uint63 Lia Lqa.
From stdpp Require Import gmap strings list.

Local Open Scope Z_scope.

(** * Scalars *)

(** What the program needs of a Python [float]: the value of a decimal
    literal, [*] and [-]. *)
Class Scalar (F : Type) := {
  lit : Q -> F;
  mul : F -> F -> F;
  sub : F -> F -> F;
}.

Declare Scope scalar_scope.
Delimit Scope scalar_scope with sc.
Infix "*" := mul : scalar_scope.
Infix "-" := sub : scalar_scope.

(** An integer as a double; exact below 2^53. *)
Definition Z2float (z : Z) : float :=
  if z <? 0 then PrimFloat.opp (PrimFloat.of_uint63 (Uint63.of_Z (- z)))
  else PrimFloat.of_uint63 (Uint63.of_Z z).

(** A decimal literal [n / 10^k] as the double nearest to it: numerator
    and denominator are exact doubles and IEEE division rounds once. *)
Definition float_lit (q : Q) : float :=
  PrimFloat.div (Z2float (Qnum q)) (Z2float (Zpos (Qden q))).

#[export] Instance binary64 : Scalar float :=
  {| lit := float_lit; mul := PrimFloat.mul; sub := PrimFloat.sub |}.

#[export] Instance exact : Scalar Q :=
  {| lit := fun q => q; mul := Qmult; sub := Qminus |}.

(** * Python exceptions *)

(** The exception classes the core can raise, each with a short account of
    why (not the library's message text). *)
Inductive exn : Type :=
  | KeyError (key : string)
  | ValueError (why : string)
  | TypeError (why : string).

Inductive result (A : Type) : Type :=
  | Ok (a : A)
  | Raise (e : exn).
Arguments Ok {A} a.
Arguments Raise {A} e.

(** * The ISO table *)

(** [ISO_PRESETS]: (identifier, label, description), by increasing ISO. *)
Definition ISO_PRESETS : list (string * string * string) :=
  [ ("80", "ISO 80", "Sony FX30 ISO 80 grain structure");
    ("100", "ISO 100", "Sony FX30 ISO 100 grain structure");
    ("200", "ISO 200", "Sony FX30 ISO 200 grain structure");
    ("400", "ISO 400", "Sony FX30 ISO 400 grain structure");
    ("800", "ISO 800", "Sony FX30 ISO 800 grain structure");
    ("1600", "ISO 1600", "Sony FX30 ISO 1600 grain structure");
    ("3200", "ISO 3200", "Sony FX30 ISO 3200 grain structure");
    ("6400", "ISO 6400", "Sony FX30 ISO 6400 grain structure");
    ("12800", "ISO 12800", "Sony FX30 ISO 12800 grain structure");
    ("25600", "ISO 25600", "Sony FX30 ISO 25600 grain structure");
    ("32000", "ISO 32000", "Sony FX30 ISO 32000 grain structure");
    ("64000", "ISO 64000", "Sony FX30 ISO 64000 grain structure");
    ("102400", "ISO 102400", "Sony FX30 ISO 102400 grain structure") ]%string.

(** The 13 identifiers, in the order of [ISO_PRESETS]. *)
Definition iso_identifiers : list string := (λ p, p.1.1) <$> ISO_PRESETS.

(** (intensity, size, roughness, color_influence, luma_influence,
    chroma_bias) *)
Definition IsoParameters (F : Type) : Type := (F * F * F * F * F * F)%type.

Section Parameters.
Context {F : Type}.

Definition intensity (p : IsoParameters F) : F := let '(a, _, _, _, _, _) := p in a.
Definition grain_size (p : IsoParameters F) : F := let '(_, a, _, _, _, _) := p in a.
Definition roughness (p : IsoParameters F) : F := let '(_, _, a, _, _, _) := p in a.
Definition color_influence (p : IsoParameters F) : F := let '(_, _, _, a, _, _) := p in a.
Definition luma_influence (p : IsoParameters F) : F := let '(_, _, _, _, a, _) := p in a.
Definition chroma_bias (p : IsoParameters F) : F := let '(_, _, _, _, _, a) := p in a.

Context {sc : Scalar F}.

Definition row (a b c d e f : Q) : IsoParameters F :=
  (lit a, lit b, lit c, lit d, lit e, lit f).

Definition GRAIN_PARAMETERS : gmap string (IsoParameters F) :=
  list_to_map
    [ ("80"%string,     row 0.08 0.32 0.60 0.03 0.95 0.02);
      ("100"%string,    row 0.10 0.35 0.62 0.04 0.94 0.03);
      ("200"%string,    row 0.15 0.40 0.65 0.05 0.92 0.04);
      ("400"%string,    row 0.22 0.45 0.68 0.07 0.90 0.06);
      ("800"%string,    row 0.35 0.52 0.72 0.09 0.87 0.08);
      ("1600"%string,   row 0.48 0.58 0.76 0.12 0.83 0.11);
      ("3200"%string,   row 0.65 0.64 0.80 0.16 0.78 0.15);
      ("6400"%string,   row 0.85 0.70 0.84 0.21 0.72 0.20);
      ("12800"%string,  row 1.15 0.78 0.88 0.28 0.65 0.26);
      ("25600"%string,  row 1.40 0.84 0.92 0.36 0.58 0.32);
      ("32000"%string,  row 1.65 0.88 0.94 0.42 0.52 0.38);
      ("64000"%string,  row 1.95 0.92 0.96 0.48 0.45 0.46);
      ("102400"%string, row 2.30 0.96 0.98 0.55 0.38 0.52) ].

(** [GRAIN_PARAMETERS[key]] *)
Definition getitem (key : string) : result (IsoParameters F) :=
  match GRAIN_PARAMETERS !! key with
  | Some p => Ok p
  | None => Raise (KeyError key)
  end.

(** [GRAIN_PARAMETERS.get(key, default)] *)
Definition get (key : string) (default : IsoParameters F) : IsoParameters F :=
  match GRAIN_PARAMETERS !! key with
  | Some p => p
  | None => default
  end.
End Parameters.

(** * numpy.random *)

(** The bit generator behind [numpy.random]: the state of the process-wide
    [RandomState], how a 32-bit integer initialises it, and one draw from
    the standard normal distribution, which advances it. *)
Class Generator (F : Type) := {
  RandomState : Type;
  mt19937_seed : Z -> RandomState;
  standard_normal : RandomState -> F * RandomState;
}.

(** A value passed as a seed: an integer or a float, the numbers of the
    design document, or a string.  [np.random.seed] also takes [None] (a
    seed from the operating system) and sequences of integers; they are no
    values of this type, and nothing below speaks of them. *)
Inductive pyvalue (F : Type) : Type :=
  | PyInt (z : Z)
  | PyFloat (x : F)
  | PyStr (s : string).
Arguments PyInt {F} z.
Arguments PyFloat {F} x.
Arguments PyStr {F} s.

Section Numpy.
Context {F : Type} {sc : Scalar F} {rng : Generator F}.

(** Computations that read and write the global [RandomState] and may
    raise. *)
Definition M (A : Type) : Type := RandomState -> result A * RandomState.

Definition ret {A} (a : A) : M A := fun g => (Ok a, g).
Definition raise {A} (e : exn) : M A := fun g => (Raise e, g).
Definition bind {A B} (m : M A) (k : A -> M B) : M B :=
  fun g => match m g with
           | (Ok a, g') => k a g'
           | (Raise e, g') => (Raise e, g')
           end.
Definition lift {A} (r : result A) : M A := fun g => (r, g).
Definition put (g : RandomState) : M unit := fun _ => (Ok tt, g).
Definition sample : M F := fun g => let '(x, g') := standard_normal g in (Ok x, g').

Notation "x <- m ;; k" := (bind m (fun x => k))
  (at level 100, m at next level, right associativity).

(** [np.random.seed(seed)] on the seeds of [pyvalue]: an integer from 0 to
    2**32 - 1 reseeds the global generator; any other integer is a
    [ValueError]; a float or a string cannot be cast to an integer safely,
    a [TypeError]. *)
Definition np_random_seed (seed : pyvalue F) : M unit :=
  match seed with
  | PyInt z =>
      if (z <? 0) || (2 ^ 32 - 1 <? z)
      then raise (ValueError "seed out of range")
      else put (mt19937_seed z)
  | PyFloat _ => raise (TypeError "seed is not an integer")
  | PyStr _ => raise (TypeError "seed is not an integer")
  end.

(** [n] consecutive draws. *)
Fixpoint draws (n : nat) : M (list F) :=
  match n with
  | O => ret []
  | S n' => x <- sample ;; xs <- draws n' ;; ret (x :: xs)
  end.

(** [rows] rows of [cols] draws, filled row by row. *)
Fixpoint draw_rows (rows cols : nat) : M (list (list F)) :=
  match rows with
  | O => ret []
  | S rows' => r <- draws cols ;; rs <- draw_rows rows' cols ;; ret (r :: rs)
  end.

(** [np.random.normal(0, 1, (rows, cols))] *)
Definition np_random_normal (shape : Z * Z) : M (list (list F)) :=
  let '(rows, cols) := shape in
  if (rows <? 0) || (cols <? 0)
  then raise (ValueError "negative dimensions")
  else draw_rows (Z.to_nat rows) (Z.to_nat cols).

(** [array * scalar], elementwise. *)
Definition scale (a : list (list F)) (c : F) : list (list F) :=
  map (map (fun x => (x * c)%sc)) a.
Infix "*." := scale (at level 40, left associativity).

(** * FX30GrainPattern *)

Record FX30GrainPattern : Type := {
  iso : string;
  seed : pyvalue F;
  parameters : IsoParameters F;
}.

(** The dictionary [generate_pattern] returns. *)
Record NoiseField : Type := {
  luma : list (list F);
  red : list (list F);
  green : list (list F);
  blue : list (list F);
  nf_size : F;
  nf_roughness : F;
  nf_chroma_bias : F;
}.

(** [FX30GrainPattern.__init__] *)
Definition init (iso : string) (seed : pyvalue F) : M FX30GrainPattern :=
  default <- lift (getitem "800") ;;
  ret {| iso := iso; seed := seed; parameters := get iso default |}.

(** [FX30GrainPattern()], with the defaults [iso="800"] and [seed=1]. *)
Definition init_default : M FX30GrainPattern := init "800" (PyInt 1).

(** [FX30GrainPattern.generate_pattern] *)
Definition generate_pattern (self : FX30GrainPattern) (width height : Z) : M NoiseField :=
  _ <- np_random_seed (seed self) ;;
  let '(intensity, size, roughness, color_influence, luma_influence, chroma_bias) :=
    parameters self in
  luma_noise <- np_random_normal (height, width) ;;
  n <- np_random_normal (height, width) ;;
  let r_noise := n *. color_influence *. lit 1.2 in
  n <- np_random_normal (height, width) ;;
  let g_noise := n *. color_influence *. lit 0.8 in
  n <- np_random_normal (height, width) ;;
  let b_noise := n *. color_influence *. lit 1.4 in
  ret {| luma := luma_noise *. intensity *. luma_influence;
         red := r_noise *. intensity *. (lit 1 - luma_influence)%sc;
         green := g_noise *. intensity *. (lit 1 - luma_influence)%sc;
         blue := b_noise *. intensity *. (lit 1 - luma_influence)%sc;
         nf_size := size;
         nf_roughness := roughness;
         nf_chroma_bias := chroma_bias |}.

(** [FX30GrainPattern(iso, seed).generate_pattern(width, height)]: the
    design document's [generate(iso, seed, width, height)]. *)
Definition generate (iso : string) (seed : pyvalue F) (width height : Z) : M NoiseField :=
  self <- init iso seed ;;
  generate_pattern self width height.
End Numpy.

(** * A generator to run the program on *)

(** A stand-in for the bit generator, for running the program on concrete
    inputs: the state is a counter, seeding sets it, and draw number [k]
    is [((k mod 7) - 3) / 2]. *)
Definition counter_draw {F : Type} {sc : Scalar F} (k : Z) : F := lit ((k mod 7 - 3) # 2).

Definition counter_rng {F : Type} {sc : Scalar F} : Generator F :=
  {| RandomState := Z;
     mt19937_seed := fun z => z;
     standard_normal := fun k => (counter_draw k, k + 1) |}.

(** * Running the program *)

Section Runs.
Context {F : Type} {sc : Scalar F} {rng : Generator F}.

Infix "*." := scale (at level 40, left associativity).

(** The seeds [np.random.seed] accepts. *)
Definition seed_ok (s : pyvalue F) : bool :=
  match s with
  | PyInt z => (0 <=? z) && (z <=? 2 ^ 32 - 1)
  | _ => false
  end.

(** The field [np.random.normal] returns from state [g], and the state
    it leaves. *)
Definition drawn (rows cols : nat) (g : RandomState) : list (list F) :=
  match draw_rows rows cols g with
  | (Ok a, _) => a
  | (Raise _, _) => []
  end.
Definition advanced (rows cols : nat) (g : RandomState) : RandomState :=
  (draw_rows rows cols g).2.

(** The four raw fields of a call seeded with [z], in the order they are
    drawn, and the states between them. *)
Definition state0 (z : Z) : RandomState := mt19937_seed z.
Definition state1 (z height width : Z) : RandomState :=
  advanced (Z.to_nat height) (Z.to_nat width) (state0 z).
Definition state2 (z height width : Z) : RandomState :=
  advanced (Z.to_nat height) (Z.to_nat width) (state1 z height width).
Definition state3 (z height width : Z) : RandomState :=
  advanced (Z.to_nat height) (Z.to_nat width) (state2 z height width).
Definition state4 (z height width : Z) : RandomState :=
  advanced (Z.to_nat height) (Z.to_nat width) (state3 z height width).

Definition raw_luma (z height width : Z) : list (list F) :=
  drawn (Z.to_nat height) (Z.to_nat width) (state0 z).
Definition raw_red (z height width : Z) : list (list F) :=
  drawn (Z.to_nat height) (Z.to_nat width) (state1 z height width).
Definition raw_green (z height width : Z) : list (list F) :=
  drawn (Z.to_nat height) (Z.to_nat width) (state2 z height width).
Definition raw_blue (z height width : Z) : list (list F) :=
  drawn (Z.to_nat height) (Z.to_nat width) (state3 z height width).

(** The parameters [__init__] resolves for [iso]. *)
Definition resolved (iso : string) : IsoParameters F :=
  get iso (row 0.35 0.52 0.72 0.09 0.87 0.08).

(** A grid of [rows] rows of [cols] values. *)
Definition shaped (rows cols : nat) (a : list (list F)) : Prop :=
  length a = rows /\ Forall (fun r => length r = cols) a.

(** What [generate_pattern] builds from the parameters and the four raw
    fields. *)
Definition assemble (p : IsoParameters F) (l r g b : list (list F)) : NoiseField :=
  {| luma := l *. intensity p *. luma_influence p;
     red := r *. color_influence p *. lit 1.2 *. intensity p *. (lit 1 - luma_influence p)%sc;
     green := g *. color_influence p *. lit 0.8 *. intensity p *. (lit 1 - luma_influence p)%sc;
     blue := b *. color_influence p *. lit 1.4 *. intensity p *. (lit 1 - luma_influence p)%sc;
     nf_size := grain_size p;
     nf_roughness := roughness p;
     nf_chroma_bias := chroma_bias p |}.

End Runs.

(** * Vocabulary of the stated properties *)

Section Vocabulary.
Context {F : Type} {sc : Scalar F} {rng : Generator F}.

Infix "*." := scale (at level 40, left associativity).

(** A colour field as the design document words it: the raw field times
    the channel weight, the intensity and [1 - luma_influence]. *)
Definition weighted_only (raw : list (list F)) (weight : Q) (p : IsoParameters F) : list (list F) :=
  raw *. lit weight *. intensity p *. (lit 1 - luma_influence p)%sc.

(** The exception [np.random.seed] raises on a seed it refuses. *)
Definition seed_error (s : pyvalue F) : exn :=
  match s with
  | PyInt _ => ValueError "seed out of range"
  | PyFloat _ | PyStr _ => TypeError "seed is not an integer"
  end.

(** A grid without a single value. *)
Definition empty_grid (a : list (list F)) : Prop := concat a = [].

(** [q] is the row of a higher ISO than [p]: every parameter has grown,
    except [luma_influence], which has shrunk. *)
Definition ordered_by_iso (le : F -> F -> Prop) (p q : IsoParameters F) : Prop :=
  le (intensity p) (intensity q) /\
  le (grain_size p) (grain_size q) /\
  le (roughness p) (roughness q) /\
  le (color_influence p) (color_influence q) /\
  le (chroma_bias p) (chroma_bias q) /\
  le (luma_influence q) (luma_influence p).
End Vocabulary.

(** The program on the stand-in generator, in double precision and in
    exact arithmetic. *)
Definition generate_binary64 : string -> pyvalue float -> Z -> Z -> Z -> result NoiseField * Z :=
  @generate float binary64 counter_rng.
Definition generate_exact : string -> pyvalue Q -> Z -> Z -> Z -> result NoiseField * Z :=
  @generate Q exact counter_rng.

(** Equality of doubles, elementwise. *)
Definition grid_eqb (a b : list (list float)) : bool :=
  forallb (fun rs => forallb (fun xy => PrimFloat.eqb xy.1 xy.2) (combine rs.1 rs.2)) (combine a b)
  && (length a =? length b)%nat
  && forallb (fun rs => (length rs.1 =? length rs.2)%nat) (combine a b).

(** Equality of rational grids, up to the representation of each
    fraction. *)
Definition grid_equiv (a b : list (list Q)) : Prop := Forall2 (Forall2 Qeq) a b.

(** A stand-in generator whose every draw is [x]. *)
Definition constant_rng {F : Type} (x : F) : Generator F :=
  {| RandomState := unit;
     mt19937_seed := fun _ => tt;
     standard_normal := fun _ => (x, tt) |}.

(** Seven times the smallest positive double. *)
Definition seven_ulps : float := 0x7p-1074%float.

(** [mean(abs(a))] of a grid of doubles, summed from the left. *)
Definition mean_abs_binary64 (a : list (list float)) : float :=
  PrimFloat.div (fold_left PrimFloat.add (map PrimFloat.abs (concat a)) 0%float)
    (Z2float (Z.of_nat (length (concat a)))).

(** [mean(abs(a))] of a rational grid. *)
Definition sum_abs (a : list (list Q)) : Q := fold_right Qplus 0%Q (map Qabs (concat a)).
Definition mean_abs (a : list (list Q)) : Q :=
  (sum_abs a / inject_Z (Z.of_nat (length (concat a))))%Q.

(** * The stream behind the four fields *)

Section Stream.
Context {F : Type} {sc : Scalar F} {rng : Generator F}.

(** The first [n] draws from state [g], and the state they leave. *)
Definition stream (n : nat) (g : RandomState) : list F :=
  match draws n g with
  | (Ok xs, _) => xs
  | (Raise _, _) => []
  end.
Definition after (n : nat) (g : RandomState) : RandomState := (draws n g).2.
End Stream.

(** * The properties the node and the camera declare *)

(** What the program reads of an object of [bpy.data.objects]. *)
Record Object : Type := {
  name : string;
  type : string;
}.

Record EnumProperty : Type := {
  enum_name : string;
  enum_description : string;
  enum_items : list (string * string * string);
  enum_default : string;
}.

(** The identifiers of a list of enum items. *)
Definition identifiers (items : list (string * string * string)) : list string :=
  (λ p, p.1.1) <$> items.

(** [FX30GrainCameraSettings.iso] *)
Definition camera_iso : EnumProperty :=
  {| enum_name := "ISO Setting";
     enum_description := "ISO setting for this camera";
     enum_items := ISO_PRESETS;
     enum_default := "800" |}.

(** The [items] callback of [FX30GrainMatchNode.camera_override], on the
    objects of [bpy.data.objects]. *)
Definition camera_override_items (objects : list Object) : list (string * string * string) :=
  ((λ obj, (name obj, name obj, ""%string)) <$> filter (λ obj, type obj = "CAMERA"%string) objects)
  ++ [("NONE", "Active Camera", "")]%string.

(** [FX30GrainMatchNode.camera_override] *)
Definition camera_override (objects : list Object) : EnumProperty :=
  {| enum_name := "Camera Override";
     enum_description := "Select which camera's settings to use (or None for active camera)";
     enum_items := camera_override_items objects;
     enum_default := "NONE" |}.

(** [FX30GrainMatchNode.custom_iso] *)
Definition custom_iso : EnumProperty :=
  {| enum_name := "Custom ISO";
     enum_description := "ISO setting to use if not using camera settings";
     enum_items := ISO_PRESETS;
     enum_default := "800" |}.

(** * Registration *)

(** What [register] and [unregister] touch in Blender: the registered
    classes, the class the property [bpy.types.Camera.fx30_grain] points
    to, if it is set, and the draw functions of the menu [NODE_MT_add]. *)
Record blender : Type := {
  classes : gset string;
  camera_fx30_grain : option string;
  NODE_MT_add : list string;
}.

Inductive bpy_error : Type :=
  | AlreadyRegistered (cls : string)
  | NotRegistered (cls : string)
  | RefusedDeclaration (cls : string)
  | AttributeError (attr : string).

(** A sequence of calls ends well, or raises in the state it has reached. *)
Inductive outcome : Type :=
  | Done (h : blender)
  | Failed (e : bpy_error) (h : blender).

Definition and_then (o : outcome) (k : blender -> outcome) : outcome :=
  match o with
  | Done h => k h
  | Failed e h => Failed e h
  end.
Infix ">>>" := and_then (at level 50, left associativity).

(** The classes that declare an [EnumProperty] whose [items] is a callback
    and whose [default] is a string: [FX30GrainMatchNode], by its
    [camera_override].  Blender takes no string default for such an
    enum. *)
Definition declares_refused_enum (cls : string) : bool :=
  String.eqb cls "FX30GrainMatchNode".

(** [bpy.utils.register_class(cls)]: a class registers once; a class with
    a declaration Blender refuses is registered and then raises, its
    properties never set up. *)
Definition register_class (cls : string) (h : blender) : outcome :=
  if decide (cls ∈ classes h) then Failed (AlreadyRegistered cls) h
  else
    let h' := {| classes := {[cls]} ∪ classes h;
                 camera_fx30_grain := camera_fx30_grain h;
                 NODE_MT_add := NODE_MT_add h |} in
    if declares_refused_enum cls then Failed (RefusedDeclaration cls) h' else Done h'.

(** [bpy.utils.unregister_class(cls)]: only of a registered class. *)
Definition unregister_class (cls : string) (h : blender) : outcome :=
  if decide (cls ∈ classes h)
  then Done {| classes := classes h ∖ {[cls]};
               camera_fx30_grain := camera_fx30_grain h;
               NODE_MT_add := NODE_MT_add h |}
  else Failed (NotRegistered cls) h.

(** [list.remove]: the first occurrence. *)
Fixpoint remove_first (f : string) (m : list string) : list string :=
  match m with
  | [] => []
  | x :: m' => if decide (x = f) then m' else x :: remove_first f m'
  end.

(** [bpy.types.NODE_MT_add.append(f)] *)
Definition menu_append (f : string) (h : blender) : outcome :=
  Done {| classes := classes h;
          camera_fx30_grain := camera_fx30_grain h;
          NODE_MT_add := NODE_MT_add h ++ [f] |}.

(** [bpy.types.NODE_MT_add.remove(f)]: silent when [f] is not there. *)
Definition menu_remove (f : string) (h : blender) : outcome :=
  Done {| classes := classes h;
          camera_fx30_grain := camera_fx30_grain h;
          NODE_MT_add := remove_first f (NODE_MT_add h) |}.

(** [register_camera_property] *)
Definition register_camera_property (h : blender) : outcome :=
  Done {| classes := classes h;
          camera_fx30_grain := Some "FX30GrainCameraSettings"%string;
          NODE_MT_add := NODE_MT_add h |}.

(** [del bpy.types.Camera.fx30_grain] *)
Definition del_camera_fx30_grain (h : blender) : outcome :=
  match camera_fx30_grain h with
  | Some _ => Done {| classes := classes h;
                      camera_fx30_grain := None;
                      NODE_MT_add := NODE_MT_add h |}
  | None => Failed (AttributeError "fx30_grain") h
  end.

(** [register] *)
Definition register (h : blender) : outcome :=
  register_class "FX30GrainCameraSettings" h
  >>> register_camera_property
  >>> register_class "FX30GrainMatchNode"
  >>> register_class "FX30GrainMatchGroup"
  >>> register_class "FX30GrainCameraPanel"
  >>> menu_append "add_node_to_menu".

(** [unregister] *)
Definition unregister (h : blender) : outcome :=
  menu_remove "add_node_to_menu" h
  >>> unregister_class "FX30GrainCameraPanel"
  >>> unregister_class "FX30GrainMatchGroup"
  >>> unregister_class "FX30GrainMatchNode"
  >>> unregister_class "FX30GrainCameraSettings"
  >>> del_camera_fx30_grain.

(** The four classes of the plugin. *)
Definition plugin_classes : list string :=
  ["FX30GrainCameraSettings"; "FX30GrainMatchNode"; "FX30GrainMatchGroup";
   "FX30GrainCameraPanel"]%string.

(** A Blender that holds nothing of the plugin. *)
Definition fresh (h : blender) : Prop :=
  Forall (λ cls, cls ∉ classes h) plugin_classes /\
  camera_fx30_grain h = None /\
  "add_node_to_menu"%string ∉ NODE_MT_add h.

(** * Runs of the generator *)

Section RunLemmas.
Context {F : Type} {sc : Scalar F} {rng : Generator F}.

Infix "*." := scale (at level 40, left associativity).

Lemma draws_run (n : nat) (g : RandomState) :
  exists xs g', draws n g = (Ok xs, g') /\ length xs = n.
Proof.
  revert g; induction n as [|n IH]; intros g; simpl.
  - exists [], g. split; reflexivity.
  - unfold bind, sample. destruct (standard_normal g) as [x g1].
    destruct (IH g1) as (xs & g2 & -> & Hlen).
    exists (x :: xs), g2. split; [reflexivity | simpl; congruence].
Qed.

Lemma draw_rows_run (rows cols : nat) (g : RandomState) :
  draw_rows rows cols g = (Ok (drawn rows cols g), advanced rows cols g).
Proof.
  unfold drawn, advanced. revert g; induction rows as [|rows IH]; intros g; simpl.
  - reflexivity.
  - unfold bind. destruct (draws_run cols g) as (xs & g1 & -> & _).
    rewrite (IH g1). reflexivity.
Qed.

Lemma draw_rows_shaped (rows cols : nat) (g g' : RandomState) (a : list (list F)) :
  draw_rows rows cols g = (Ok a, g') -> shaped rows cols a.
Proof.
  revert g g' a; induction rows as [|rows IH]; intros g g' a; simpl.
  - intros [= <- _]. split; [reflexivity | constructor].
  - unfold bind. destruct (draws_run cols g) as (xs & g1 & -> & Hlen).
    destruct (draw_rows rows cols g1) as [[rs|e] g2] eqn:E; [| discriminate].
    intros [= <- _]. destruct (IH g1 g2 rs E) as [IH1 IH2].
    split; simpl; [congruence | constructor; assumption].
Qed.

Lemma drawn_shaped (rows cols : nat) (g : RandomState) :
  shaped rows cols (drawn rows cols g).
Proof. eapply draw_rows_shaped, draw_rows_run. Qed.

Lemma scale_shaped (rows cols : nat) (a : list (list F)) (c : F) :
  shaped rows cols a -> shaped rows cols (a *. c).
Proof.
  unfold shaped, scale. intros [Hr Hc]. split.
  - rewrite length_map. exact Hr.
  - apply Forall_map. eapply Forall_impl; [exact Hc |].
    intros r Hlen. simpl. rewrite length_map. exact Hlen.
Qed.

Lemma np_random_normal_run (height width : Z) (g : RandomState) :
  0 <= width -> 0 <= height ->
  np_random_normal (height, width) g =
    (Ok (drawn (Z.to_nat height) (Z.to_nat width) g),
     advanced (Z.to_nat height) (Z.to_nat width) g).
Proof.
  intros Hw Hh. unfold np_random_normal.
  destruct (Z.ltb_spec height 0); [lia |].
  destruct (Z.ltb_spec width 0); [lia |].
  simpl. apply draw_rows_run.
Qed.

Lemma np_random_normal_negative (height width : Z) (g : RandomState) :
  width < 0 \/ height < 0 ->
  np_random_normal (height, width) g = (Raise (ValueError "negative dimensions"), g).
Proof.
  intros Hneg. unfold np_random_normal.
  destruct (Z.ltb_spec height 0), (Z.ltb_spec width 0); simpl; try reflexivity; lia.
Qed.

Lemma np_random_seed_run (z : Z) (g : RandomState) :
  seed_ok (F:=F) (PyInt z) = true -> np_random_seed (PyInt z) g = (Ok tt, state0 z).
Proof.
  unfold seed_ok, np_random_seed. intros Hz.
  apply andb_prop in Hz as [H0 H1].
  apply Z.leb_le in H0. apply Z.leb_le in H1.
  destruct (Z.ltb_spec z 0); [lia |].
  destruct (Z.ltb_spec (2 ^ 32 - 1) z); [lia |].
  reflexivity.
Qed.

Lemma seed_ok_int (s : pyvalue F) :
  seed_ok s = true -> exists z, s = PyInt z /\ 0 <= z <= 2 ^ 32 - 1.
Proof.
  destruct s as [z| |]; simpl; try discriminate.
  intros Hz. apply andb_prop in Hz as [H0 H1].
  apply Z.leb_le in H0. apply Z.leb_le in H1. eauto.
Qed.

Lemma generate_pattern_run (self : FX30GrainPattern) (z width height : Z) (g : RandomState) :
  seed self = PyInt z -> seed_ok (F:=F) (PyInt z) = true -> 0 <= width -> 0 <= height ->
  generate_pattern self width height g =
    (Ok (assemble (parameters self)
           (raw_luma z height width) (raw_red z height width)
           (raw_green z height width) (raw_blue z height width)),
     state4 z height width).
Proof.
  intros Hs Hz Hw Hh. unfold generate_pattern, bind.
  rewrite Hs, (np_random_seed_run z g Hz).
  destruct (parameters self) as [[[[[i s] r] c] l] b].
  rewrite !np_random_normal_run by assumption.
  reflexivity.
Qed.

Lemma getitem_800 : getitem "800" = Ok (row 0.35 0.52 0.72 0.09 0.87 0.08).
Proof. reflexivity. Qed.

Lemma init_run (i : string) (s : pyvalue F) (g : RandomState) :
  init i s g = (Ok {| iso := i; seed := s; parameters := resolved i |}, g).
Proof. unfold init, bind, lift. rewrite getitem_800. reflexivity. Qed.

Lemma generate_run (i : string) (z width height : Z) (g : RandomState) :
  seed_ok (F:=F) (PyInt z) = true -> 0 <= width -> 0 <= height ->
  generate i (PyInt z) width height g =
    (Ok (assemble (resolved i)
           (raw_luma z height width) (raw_red z height width)
           (raw_green z height width) (raw_blue z height width)),
     state4 z height width).
Proof.
  intros Hz Hw Hh. unfold generate, bind. rewrite init_run.
  exact (generate_pattern_run {| iso := i; seed := PyInt z; parameters := resolved i |}
           z width height g eq_refl Hz Hw Hh).
Qed.
End RunLemmas.

(** * Determinism, scaling and pass-through *)

Section Generation.
Context {F : Type} {sc : Scalar F} {rng : Generator F}.

Infix "*." := scale (at level 40, left associativity).

(** C1. Determinism: on a valid tuple (a seed [np.random.seed] accepts,
    dimensions that are not negative) [generate] returns a field, and two
    calls with the same arguments return the same field, whatever the
    state of the global generator at each call: [g2] may in particular be
    the state the first call left behind.  The fields are equal as records:
    the four grids and the three scalars. *)
Theorem generate_deterministic (i : string) (s : pyvalue F) (width height : Z)
    (g1 g2 : RandomState) :
  seed_ok s = true -> 0 <= width -> 0 <= height ->
  exists nf : NoiseField,
    (generate i s width height g1).1 = Ok nf /\
    (generate i s width height g2).1 = Ok nf /\
    (generate i s width height (generate i s width height g1).2).1 = Ok nf.
Proof.
  intros Hs Hw Hh. destruct (seed_ok_int s Hs) as (z & -> & _).
  rewrite !generate_run by assumption. simpl. eauto.
Qed.

(** C2, as amended. Each colour field is the raw draw times
    [color_influence], then the channel weight (1.2 red, 0.8 green, 1.4
    blue), then [intensity], then [1 - luma_influence], in this order. *)
Theorem color_fields_scaled (i : string) (z width height : Z) (g : RandomState) :
  seed_ok (F:=F) (PyInt z) = true -> 0 <= width -> 0 <= height ->
  let p := resolved i in
  exists nf : NoiseField,
    (generate i (PyInt z) width height g).1 = Ok nf /\
    red nf = raw_red z height width
               *. color_influence p *. lit 1.2 *. intensity p *. (lit 1 - luma_influence p)%sc /\
    green nf = raw_green z height width
               *. color_influence p *. lit 0.8 *. intensity p *. (lit 1 - luma_influence p)%sc /\
    blue nf = raw_blue z height width
               *. color_influence p *. lit 1.4 *. intensity p *. (lit 1 - luma_influence p)%sc.
Proof.
  intros Hz Hw Hh p. rewrite generate_run by assumption.
  eexists. split; [reflexivity |]. cbn [assemble luma red green blue nf_size nf_roughness nf_chroma_bias fst snd]. auto.
Qed.

(** C3. The luma field is the raw luminance draw times [intensity] times
    [luma_influence], and size, roughness and chroma bias are those of the
    resolved parameters. *)
Theorem luma_scaled_and_scalars_passed (i : string) (z width height : Z) (g : RandomState) :
  seed_ok (F:=F) (PyInt z) = true -> 0 <= width -> 0 <= height ->
  let p := resolved i in
  exists nf : NoiseField,
    (generate i (PyInt z) width height g).1 = Ok nf /\
    luma nf = raw_luma z height width *. intensity p *. luma_influence p /\
    nf_size nf = grain_size p /\
    nf_roughness nf = roughness p /\
    nf_chroma_bias nf = chroma_bias p.
Proof.
  intros Hz Hw Hh p. rewrite generate_run by assumption.
  eexists. split; [reflexivity |]. cbn [assemble luma red green blue nf_size nf_roughness nf_chroma_bias fst snd]. auto.
Qed.
End Generation.

Lemma generate_deterministic_witness :
  seed_ok (F:=Q) (PyInt 1) = true /\ 0 <= 2 /\ 0 <= 2 /\
  exists nf : NoiseField,
    (generate_exact "80" (PyInt 1) 2 2 0).1 = Ok nf /\
    (generate_exact "80" (PyInt 1) 2 2 40).1 = Ok nf /\
    (generate_exact "80" (PyInt 1) 2 2 (generate_exact "80" (PyInt 1) 2 2 0).2).1 = Ok nf.
Proof.
  split; [reflexivity |]. split; [lia |]. split; [lia |].
  apply (generate_deterministic (rng:=counter_rng) "80" (PyInt 1) 2 2 0 40); [reflexivity | lia | lia].
Defined.

(** C2, as first stated, fails: with ISO "80", seed 5 and a 1 by 1 field
    the red, green and blue values are 0.03 ([color_influence]) times what
    the weight, the intensity and [1 - luma_influence] alone would give,
    in double precision and in exact arithmetic alike. *)
Lemma color_fields_not_weighted_only :
  exists nf nfq : NoiseField,
    (generate_binary64 "80" (PyInt 5) 1 1 0).1 = Ok nf /\
    (generate_exact "80" (PyInt 5) 1 1 0).1 = Ok nfq /\
    red nf <> weighted_only (raw_red (rng:=counter_rng) 5 1 1) 1.2 (resolved "80") /\
    green nf <> weighted_only (raw_green (rng:=counter_rng) 5 1 1) 0.8 (resolved "80") /\
    blue nf <> weighted_only (raw_blue (rng:=counter_rng) 5 1 1) 1.4 (resolved "80") /\
    ~ grid_equiv (red nfq) (weighted_only (raw_red (rng:=counter_rng) 5 1 1) 1.2 (resolved "80")).
Proof.
  eexists _, _. split; [vm_compute; reflexivity |]. split; [vm_compute; reflexivity |].
  repeat split.
  - intros H. apply (f_equal (fun a => grid_eqb a a)) in H as H'.
    rewrite H in H' at 1. vm_compute in H'. discriminate.
  - intros H. apply (f_equal (fun a => grid_eqb a a)) in H as H'.
    rewrite H in H' at 1. vm_compute in H'. discriminate.
  - intros H. apply (f_equal (fun a => grid_eqb a a)) in H as H'.
    rewrite H in H' at 1. vm_compute in H'. discriminate.
  - intros H. vm_compute in H. inversion H as [|? ? ? ? Hrow _]; subst.
    inversion Hrow as [|? ? ? ? Hx _]; subst. vm_compute in Hx. discriminate.
Qed.

Lemma color_fields_scaled_witness :
  seed_ok (F:=Q) (PyInt 5) = true /\ 0 <= 1 /\ 0 <= 1 /\
  exists nf : NoiseField,
    (generate_exact "80" (PyInt 5) 1 1 0).1 = Ok nf /\
    red nf = scale (scale (scale (scale (raw_red (rng:=counter_rng) 5 1 1)
               (color_influence (resolved "80"))) (lit 1.2)) (intensity (resolved "80")))
               (lit 1 - luma_influence (resolved "80"))%sc /\
    green nf = scale (scale (scale (scale (raw_green (rng:=counter_rng) 5 1 1)
               (color_influence (resolved "80"))) (lit 0.8)) (intensity (resolved "80")))
               (lit 1 - luma_influence (resolved "80"))%sc /\
    blue nf = scale (scale (scale (scale (raw_blue (rng:=counter_rng) 5 1 1)
               (color_influence (resolved "80"))) (lit 1.4)) (intensity (resolved "80")))
               (lit 1 - luma_influence (resolved "80"))%sc.
Proof.
  split; [reflexivity |]. split; [lia |]. split; [lia |].
  apply (color_fields_scaled (rng:=counter_rng) "80" 5 1 1 0); [reflexivity | lia | lia].
Defined.

Lemma luma_scaled_and_scalars_passed_witness :
  seed_ok (F:=Q) (PyInt 5) = true /\ 0 <= 1 /\ 0 <= 1 /\
  exists nf : NoiseField,
    (generate_exact "3200" (PyInt 5) 1 1 0).1 = Ok nf /\
    luma nf = scale (scale (raw_luma (rng:=counter_rng) 5 1 1) (intensity (resolved "3200")))
                (luma_influence (resolved "3200")) /\
    nf_size nf = grain_size (resolved "3200") /\
    nf_roughness nf = roughness (resolved "3200") /\
    nf_chroma_bias nf = chroma_bias (resolved "3200").
Proof.
  split; [reflexivity |]. split; [lia |]. split; [lia |].
  apply (luma_scaled_and_scalars_passed (rng:=counter_rng) "3200" 5 1 1 0); [reflexivity | lia | lia].
Defined.

(** * The ISO table: fallback and ordering *)

Section Table.
Context {F : Type} {sc : Scalar F} {rng : Generator F}.

Lemma unknown_iso_absent (i : string) :
  i ∉ iso_identifiers -> GRAIN_PARAMETERS (F:=F) !! i = None.
Proof. intros Hi. apply not_elem_of_list_to_map_1. exact Hi. Qed.

Lemma resolved_800 : resolved (F:=F) "800" = row 0.35 0.52 0.72 0.09 0.87 0.08.
Proof. reflexivity. Qed.

(** C4. The lookup in [__init__] never raises and leaves the global
    generator alone, for every identifier; for an identifier that is not
    one of the 13 keys it yields the parameters of "800". *)
Theorem unknown_iso_falls_back_to_800 (i : string) (s : pyvalue F) (g : RandomState) :
  i ∉ iso_identifiers ->
  (forall (k : string) (s' : pyvalue F) (g' : RandomState),
     exists self : FX30GrainPattern, init k s' g' = (Ok self, g')) /\
  exists self self800 : FX30GrainPattern,
    init i s g = (Ok self, g) /\
    init "800" s g = (Ok self800, g) /\
    parameters self = parameters self800 /\
    parameters self800 = row 0.35 0.52 0.72 0.09 0.87 0.08.
Proof.
  intros Hi. split.
  - intros k s' g'. rewrite init_run. eauto.
  - rewrite !init_run. eexists _, _. split; [reflexivity |]. split; [reflexivity |].
    simpl. rewrite resolved_800. split; [| reflexivity].
    unfold resolved, get. rewrite (unknown_iso_absent i Hi). reflexivity.
Qed.
End Table.

Lemma unknown_iso_falls_back_to_800_witness :
("not-a-real-iso"%string ∉ iso_identifiers) /\
  (forall (k : string) (s' : pyvalue Q) (g' : Z),
     exists self : FX30GrainPattern, init (rng:=counter_rng) k s' g' = (Ok self, g')) /\
  exists self self800 : FX30GrainPattern,
    init (rng:=counter_rng) "not-a-real-iso" (PyInt 1) 0 = (Ok self, 0) /\
    init (rng:=counter_rng) "800" (PyInt 1) 0 = (Ok self800, 0) /\
    parameters self = parameters self800 /\
    parameters self800 = row 0.35 0.52 0.72 0.09 0.87 0.08.
Proof.
  assert (H : "not-a-real-iso"%string ∉ iso_identifiers).
  { intros Hin. vm_compute in Hin. repeat (apply elem_of_cons in Hin as [Hin | Hin]; [discriminate |]).
    apply elem_of_nil in Hin. exact Hin. }
  split; [exact H |].
  exact (unknown_iso_falls_back_to_800 (rng:=counter_rng) "not-a-real-iso" (PyInt 1) 0 H).
Defined.

Lemma iso_identifiers_eq :
  iso_identifiers =
    ["80"; "100"; "200"; "400"; "800"; "1600"; "3200"; "6400"; "12800"; "25600";
     "32000"; "64000"; "102400"]%string.
Proof. reflexivity. Qed.

Ltac table_rows :=
  eexists _, _; split; [vm_compute; reflexivity |]; split; [vm_compute; reflexivity |].

(** C5. Along the 13 identifiers by increasing ISO, intensity, size,
    roughness, color_influence and chroma_bias never decrease and
    luma_influence never increases: between any two rows, so between
    neighbours too.  It holds of the decimal values as written and of the
    doubles they are read as. *)
Theorem table_monotone (m n : nat) (a b : string) :
  (m <= n)%nat -> iso_identifiers !! m = Some a -> iso_identifiers !! n = Some b ->
  (exists p q : IsoParameters Q,
     GRAIN_PARAMETERS !! a = Some p /\ GRAIN_PARAMETERS !! b = Some q /\
     ordered_by_iso Qle p q) /\
  (exists p q : IsoParameters float,
     GRAIN_PARAMETERS !! a = Some p /\ GRAIN_PARAMETERS !! b = Some q /\
     ordered_by_iso (fun x y => PrimFloat.leb x y = true) p q).
Proof.
  intros Hmn Ha Hb. rewrite iso_identifiers_eq in Ha, Hb.
  assert (Hn : (n < 13)%nat) by (apply lookup_lt_Some in Hb; exact Hb).
  do 13 (destruct n as [|n];
    [ do 13 (destruct m as [|m];
        [ first [ exfalso; lia
                | injection Ha as <-; injection Hb as <-; split;
                  [ table_rows; repeat split; vm_compute; discriminate
                  | table_rows; repeat split; vm_compute; reflexivity ] ] |]);
      exfalso; lia |]).
  exfalso; lia.
Qed.

Lemma table_monotone_witness :
  (6 <= 12)%nat /\ iso_identifiers !! 6%nat = Some "3200"%string /\
  iso_identifiers !! 12%nat = Some "102400"%string /\
  (exists p q : IsoParameters Q,
     GRAIN_PARAMETERS !! "3200"%string = Some p /\ GRAIN_PARAMETERS !! "102400"%string = Some q /\
     ordered_by_iso Qle p q) /\
  (exists p q : IsoParameters float,
     GRAIN_PARAMETERS !! "3200"%string = Some p /\ GRAIN_PARAMETERS !! "102400"%string = Some q /\
     ordered_by_iso (fun x y => PrimFloat.leb x y = true) p q).
Proof.
  split; [lia |]. split; [reflexivity |]. split; [reflexivity |].
  apply (table_monotone 6 12 "3200" "102400"); [lia | reflexivity | reflexivity].
Defined.

(** * Dimensions, seeds and the global generator *)

Section Effects.
Context {F : Type} {sc : Scalar F} {rng : Generator F}.

Lemma shaped_empty (rows cols : nat) (a : list (list F)) :
  shaped rows cols a -> rows = 0%nat \/ cols = 0%nat -> empty_grid a.
Proof.
  unfold shaped, empty_grid. intros [Hr Hc] [-> | ->].
  - destruct a; [reflexivity | discriminate].
  - clear Hr. induction Hc as [|r a Hlen _ IH]; [reflexivity |].
    destruct r; [exact IH | discriminate].
Qed.

Lemma generate_pattern_negative (self : FX30GrainPattern) (z width height : Z) (g : RandomState) :
  seed self = PyInt z -> seed_ok (F:=F) (PyInt z) = true -> width < 0 \/ height < 0 ->
  generate_pattern self width height g =
    (Raise (ValueError "negative dimensions"), state0 z).
Proof.
  intros Hs Hz Hneg. unfold generate_pattern, bind.
  rewrite Hs, (np_random_seed_run z g Hz).
  destruct (parameters self) as [[[[[a b] c] d] e] f].
  rewrite (np_random_normal_negative height width _ Hneg). reflexivity.
Qed.

Lemma generate_negative (i : string) (z width height : Z) (g : RandomState) :
  seed_ok (F:=F) (PyInt z) = true -> width < 0 \/ height < 0 ->
  generate i (PyInt z) width height g =
    (Raise (ValueError "negative dimensions"), state0 z).
Proof.
  intros Hz Hneg. unfold generate, bind. rewrite init_run.
  exact (generate_pattern_negative {| iso := i; seed := PyInt z; parameters := resolved i |}
           z width height g eq_refl Hz Hneg).
Qed.



(** C6. With a seed [np.random.seed] accepts: a width or a height of zero
    (and no negative one) yields a field whose four grids have [height]
    rows of [width] values and hold no value at all; a negative width or
    height raises, [ValueError] from numpy, and no field is returned. *)
Theorem degenerate_dimensions (i : string) (s : pyvalue F) (g : RandomState) :
  seed_ok s = true ->
  (forall width height : Z,
     0 <= width -> 0 <= height -> width = 0 \/ height = 0 ->
     exists (nf : NoiseField) (g' : RandomState),
       generate i s width height g = (Ok nf, g') /\
       Forall (fun a => shaped (Z.to_nat height) (Z.to_nat width) a /\ empty_grid a)
         [luma nf; red nf; green nf; blue nf]) /\
  (forall width height : Z,
     width < 0 \/ height < 0 ->
     exists g' : RandomState,
       generate i s width height g = (Raise (ValueError "negative dimensions"), g')).
Proof.
  intros Hs. destruct (seed_ok_int s Hs) as (z & -> & _). split.
  - intros width height Hw Hh Hzero. rewrite generate_run by assumption.
    eexists _, _. split; [reflexivity |].
    assert (Hnat : Z.to_nat height = 0%nat \/ Z.to_nat width = 0%nat) by lia.
    assert (Hall : forall a : list (list F), shaped (Z.to_nat height) (Z.to_nat width) a ->
                     shaped (Z.to_nat height) (Z.to_nat width) a /\ empty_grid a).
    { intros a Ha. split; [exact Ha | exact (shaped_empty _ _ a Ha Hnat)]. }
    cbn [assemble luma red green blue nf_size nf_roughness nf_chroma_bias fst snd]. repeat constructor; apply Hall; repeat apply scale_shaped; apply drawn_shaped.
  - intros width height Hneg. rewrite generate_negative by assumption. eauto.
Qed.


(** C8, as amended. On a valid tuple the outcome of [generate] does not
    depend on the state of the global generator it finds, so not on the
    calls made before; but the call does write that state: it leaves the
    generator where the seed and the four draws put it. *)
Theorem generate_reseeds_global_generator (i : string) (z width height : Z)
    (g1 g2 : RandomState) :
  seed_ok (F:=F) (PyInt z) = true -> 0 <= width -> 0 <= height ->
  (generate i (PyInt z) width height g1).1 = (generate i (PyInt z) width height g2).1 /\
  (generate i (PyInt z) width height g1).2 = state4 z height width /\
  (generate i (PyInt z) width height g2).2 = state4 z height width.
Proof.
  intros Hz Hw Hh. rewrite !generate_run by assumption. auto.
Qed.
End Effects.

Lemma degenerate_dimensions_witness :
  seed_ok (F:=Q) (PyInt 1) = true /\
  (exists (nf : NoiseField) (g' : Z),
     generate_exact "80" (PyInt 1) 0 3 7 = (Ok nf, g') /\
     Forall (fun a => shaped 3 0 a /\ empty_grid a) [luma nf; red nf; green nf; blue nf]) /\
  (exists g' : Z,
     generate_exact "80" (PyInt 1) (-1) 3 7 = (Raise (ValueError "negative dimensions"), g')).
Proof.
  split; [reflexivity |].
  destruct (degenerate_dimensions (rng:=counter_rng) "80" (PyInt 1) 7 eq_refl) as [Hzero Hneg].
  split.
  - apply (Hzero 0 3); [lia | lia | left; reflexivity].
  - apply (Hneg (-1) 3). left. lia.
Defined.



(** C8, as first stated, fails: a call that finds the global generator in
    state 0 leaves it in state 17, and finding it in state 40 changes
    nothing to that. *)
Lemma generate_writes_global_generator :
  (generate_binary64 "800" (PyInt 1) 2 2 0).2 = 17 /\
  (generate_binary64 "800" (PyInt 1) 2 2 40).2 = 17 /\
  0 <> 17.
Proof. repeat split; try (vm_compute; reflexivity). discriminate. Qed.

Lemma generate_reseeds_global_generator_witness :
  seed_ok (F:=float) (PyInt 1) = true /\ 0 <= 2 /\ 0 <= 2 /\
  (generate_binary64 "800" (PyInt 1) 2 2 0).1 = (generate_binary64 "800" (PyInt 1) 2 2 40).1 /\
  (generate_binary64 "800" (PyInt 1) 2 2 0).2 = state4 (F:=float) (rng:=counter_rng) 1 2 2 /\
  (generate_binary64 "800" (PyInt 1) 2 2 40).2 = state4 (F:=float) (rng:=counter_rng) 1 2 2.
Proof.
  split; [reflexivity |]. split; [lia |]. split; [lia |].
  apply (generate_reseeds_global_generator (rng:=counter_rng) "800" 1 2 2 0 40);
    [reflexivity | lia | lia].
Defined.

(** * Exact arithmetic: means and rescaling *)

Section Exact.
Context {rng : Generator Q}.

Local Open Scope Q_scope.

Lemma total_abs_scale (l : list Q) (c : Q) :
  fold_right Qplus 0 (map Qabs (map (fun x => x * c) l)) ==
  Qabs c * fold_right Qplus 0 (map Qabs l).
Proof.
  induction l as [|x l IH]; cbn [fold_right map].
  - ring.
  - rewrite IH, Qabs_Qmult. ring.
Qed.

Lemma concat_scale (a : list (list Q)) (c : Q) :
  concat (scale a c) = map (fun x => x * c) (concat a).
Proof. unfold scale. symmetry. apply concat_map. Qed.

Lemma sum_abs_scale (a : list (list Q)) (c : Q) :
  sum_abs (scale a c) == Qabs c * sum_abs a.
Proof. unfold sum_abs. rewrite concat_scale. apply total_abs_scale. Qed.

Lemma mean_abs_scale (a : list (list Q)) (c : Q) :
  mean_abs (scale a c) == Qabs c * mean_abs a.
Proof.
  unfold mean_abs. rewrite sum_abs_scale, concat_scale, length_map.
  unfold Qdiv. ring.
Qed.

Lemma total_abs_nonneg (l : list Q) : 0 <= fold_right Qplus 0 (map Qabs l).
Proof.
  induction l as [|x l IH]; cbn [fold_right map]; [discriminate |].
  pose proof (Qabs_nonneg x). lra.
Qed.

Lemma total_abs_positive (l : list Q) :
  Exists (fun x => ~ x == 0) l -> 0 < fold_right Qplus 0 (map Qabs l).
Proof.
  induction 1 as [x l Hx | x l _ IH]; cbn [fold_right map].
  - pose proof (total_abs_nonneg l). pose proof (Qabs_nonneg x).
    assert (~ Qabs x == 0).
    { intros H1. apply Hx. revert H1. apply Qabs_case; intros; lra. }
    lra.
  - pose proof (Qabs_nonneg x). lra.
Qed.

Lemma mean_abs_positive (a : list (list Q)) :
  Exists (Exists (fun x => ~ x == 0)) a -> 0 < mean_abs a.
Proof.
  intros Ha. apply Exists_concat in Ha. unfold mean_abs, sum_abs.
  pose proof (total_abs_positive _ Ha) as Hsum.
  apply Qlt_shift_div_l; [| lra].
  destruct (concat a) as [|x l]; [inversion Ha |].
  unfold Qlt. simpl. lia.
Qed.

Lemma resolved_scale_positive (i : string) :
  0 < intensity (resolved i) * luma_influence (resolved i).
Proof.
  unfold resolved, get. destruct (GRAIN_PARAMETERS !! i) as [p|] eqn:E; [| reflexivity].
  apply elem_of_list_to_map_2 in E.
  repeat (apply elem_of_cons in E as [E | E]; [injection E as _ ->; reflexivity |]).
  apply elem_of_nil in E. destruct E.
Qed.

Lemma grid_equiv_scale (a : list (list Q)) (c d : Q) :
  c == d -> grid_equiv (scale a c) (scale a d).
Proof.
  intros Hcd. unfold grid_equiv, scale.
  induction a as [|r a IH]; simpl; constructor; [| exact IH].
  induction r as [|x r IHr]; simpl; constructor; [| exact IHr].
  simpl. rewrite Hcd. reflexivity.
Qed.

Lemma scale_scale (a : list (list Q)) (c d : Q) :
  grid_equiv (scale (scale a c) d) (scale a (c * d)).
Proof.
  unfold grid_equiv, scale.
  induction a as [|r a IH]; simpl; constructor; [| exact IH].
  induction r as [|x r IHr]; simpl; constructor; [| exact IHr].
  simpl. ring.
Qed.

Lemma mean_abs_nonneg (a : list (list Q)) : 0 <= mean_abs a.
Proof.
  unfold mean_abs, sum_abs. pose proof (total_abs_nonneg (concat a)) as Hs.
  destruct (concat a) as [|x l] eqn:E.
  - vm_compute. discriminate.
  - rewrite <- E in *. apply Qle_shift_div_l.
    + rewrite E. unfold Qlt. simpl. lia.
    + lra.
Qed.




(** C10, as amended. In exact arithmetic, for one seed and one width and
    height, the luma fields of two ISO identifiers are the same raw draw
    under two scalings, so the second is the first times
    (intensity2 * luma_influence2) / (intensity1 * luma_influence1). *)
Theorem luma_rescales_with_iso (i1 i2 : string) (z width height : Z) (g1 g2 : RandomState) :
  seed_ok (F:=Q) (PyInt z) = true -> (0 <= width)%Z -> (0 <= height)%Z ->
  let p1 := resolved i1 in
  let p2 := resolved i2 in
  exists nf1 nf2 : NoiseField,
    (generate i1 (PyInt z) width height g1).1 = Ok nf1 /\
    (generate i2 (PyInt z) width height g2).1 = Ok nf2 /\
    luma nf1 = scale (scale (raw_luma z height width) (intensity p1)) (luma_influence p1) /\
    luma nf2 = scale (scale (raw_luma z height width) (intensity p2)) (luma_influence p2) /\
    grid_equiv (luma nf2)
      (scale (luma nf1)
         ((intensity p2 * luma_influence p2) / (intensity p1 * luma_influence p1))).
Proof.
  intros Hz Hw Hh p1 p2. rewrite !generate_run by assumption.
  eexists _, _. split; [reflexivity |]. split; [reflexivity |].
  split; [reflexivity |]. split; [reflexivity |]. cbn [assemble luma red green blue nf_size nf_roughness nf_chroma_bias fst snd].
  pose proof (resolved_scale_positive i1) as Hpos. fold p1 in Hpos.
  unfold grid_equiv.
  etransitivity; [apply scale_scale |]. symmetry.
  etransitivity; [apply scale_scale |].
  etransitivity; [apply scale_scale |].
  apply grid_equiv_scale. subst p1 p2.
  set (a1 := intensity (resolved i1)) in *. set (b1 := luma_influence (resolved i1)) in *.
  set (a2 := intensity (resolved i2)). set (b2 := luma_influence (resolved i2)).
  change mul with Qmult. field.
  split; intros H0; rewrite H0 in Hpos; ring_simplify in Hpos; exact (Qlt_irrefl 0 Hpos).
Qed.
End Exact.



(** C10, as first stated, fails in double precision: with seed 6 and a 1
    by 1 field the raw value is 1.5; the luma of ISO "80" is
    0.11399999999999999 and that of ISO "3200" is 0.7605000000000001,
    while the luma of "80" times the ratio is 0.7605, whether the ratio is
    formed first or the division is done last. *)
Lemma luma_not_rescaled_in_binary64 :
  let p1 := resolved (F:=float) "80" in
  let p2 := resolved (F:=float) "3200" in
  exists nf1 nf2 : NoiseField,
    (generate_binary64 "80" (PyInt 6) 1 1 0).1 = Ok nf1 /\
    (generate_binary64 "3200" (PyInt 6) 1 1 0).1 = Ok nf2 /\
    luma nf2 <>
      scale (luma nf1)
        (PrimFloat.div (PrimFloat.mul (intensity p2) (luma_influence p2))
           (PrimFloat.mul (intensity p1) (luma_influence p1))) /\
    luma nf2 <>
      map (map (fun x =>
                  PrimFloat.div (PrimFloat.mul x (PrimFloat.mul (intensity p2) (luma_influence p2)))
                    (PrimFloat.mul (intensity p1) (luma_influence p1))))
        (luma nf1).
Proof.
  eexists _, _. split; [vm_compute; reflexivity |]. split; [vm_compute; reflexivity |].
  split.
  - intros H. apply (f_equal (fun a => grid_eqb a a)) in H as H'.
    rewrite H in H' at 1. vm_compute in H'. discriminate.
  - intros H. apply (f_equal (fun a => grid_eqb a a)) in H as H'.
    rewrite H in H' at 1. vm_compute in H'. discriminate.
Qed.

Lemma luma_rescales_with_iso_witness :
  seed_ok (F:=Q) (PyInt 6) = true /\ (0 <= 1)%Z /\ (0 <= 1)%Z /\
  exists nf1 nf2 : NoiseField,
    (generate_exact "80" (PyInt 6) 1 1 0).1 = Ok nf1 /\
    (generate_exact "3200" (PyInt 6) 1 1 0).1 = Ok nf2 /\
    luma nf1 = scale (scale (raw_luma (rng:=counter_rng) 6 1 1) (intensity (resolved "80")))
                 (luma_influence (resolved "80")) /\
    luma nf2 = scale (scale (raw_luma (rng:=counter_rng) 6 1 1) (intensity (resolved "3200")))
                 (luma_influence (resolved "3200")) /\
    grid_equiv (luma nf2)
      (scale (luma nf1)
         ((intensity (resolved "3200") * luma_influence (resolved "3200")) /
          (intensity (resolved "80") * luma_influence (resolved "80")))%Q).
Proof.
  split; [reflexivity |]. split; [lia |]. split; [lia |].
  apply (luma_rescales_with_iso (rng:=counter_rng) "80" "3200" 6 1 1 0 0); [reflexivity | lia | lia].
Defined.

(** * The stream behind the four fields *)

Section StreamLemmas.
Context {F : Type} {sc : Scalar F} {rng : Generator F}.

Lemma draws_ok (n : nat) (g : RandomState) :
  draws n g = (Ok (stream n g), after n g).
Proof.
  unfold stream, after. destruct (draws_run n g) as (xs & g' & -> & _). reflexivity.
Qed.

Lemma stream_length (n : nat) (g : RandomState) : length (stream n g) = n.
Proof.
  unfold stream. destruct (draws_run n g) as (xs & g' & -> & Hlen). exact Hlen.
Qed.

Lemma draws_add (n m : nat) (g : RandomState) :
  stream (n + m) g = stream n g ++ stream m (after n g) /\
  after (n + m) g = after m (after n g).
Proof.
  revert g; induction n as [|n IH]; intros g.
  - unfold stream at 2, after at 3. simpl. split; reflexivity.
  - assert (Hstep : forall k, draws (S k) g =
              (Ok ((standard_normal g).1 :: stream k (standard_normal g).2),
               after k (standard_normal g).2)).
    { intros k. simpl. unfold bind, sample. destruct (standard_normal g) as [x g1].
      rewrite draws_ok. reflexivity. }
    unfold stream, after. rewrite (Hstep n). change (S n + m)%nat with (S (n + m)).
    rewrite (Hstep (n + m)%nat). simpl.
    destruct (IH (standard_normal g).2) as [IH1 IH2]. rewrite IH1, IH2. split; reflexivity.
Qed.

Lemma drawn_succ (rows cols : nat) (g : RandomState) :
  drawn (S rows) cols g = stream cols g :: drawn rows cols (after cols g) /\
  advanced (S rows) cols g = advanced rows cols (after cols g).
Proof.
  unfold drawn at 1, advanced at 1. simpl. unfold bind.
  rewrite draws_ok, draw_rows_run. split; reflexivity.
Qed.

(** Row by row, a field is a stretch of the stream. *)
Lemma drawn_flat (rows cols : nat) (g : RandomState) :
  concat (drawn rows cols g) = stream (rows * cols) g /\
  advanced rows cols g = after (rows * cols) g.
Proof.
  revert g; induction rows as [|rows IH]; intros g.
  - split; reflexivity.
  - destruct (drawn_succ rows cols g) as [-> ->].
    destruct (IH (after cols g)) as [IH1 IH2].
    destruct (draws_add cols (rows * cols) g) as [H1 H2].
    simpl. rewrite IH1, IH2, H1, H2. split; reflexivity.
Qed.

Lemma drawn_add (rows more cols : nat) (g : RandomState) :
  drawn (rows + more) cols g = drawn rows cols g ++ drawn more cols (advanced rows cols g).
Proof.
  revert g; induction rows as [|rows IH]; intros g.
  - reflexivity.
  - change (S rows + more)%nat with (S (rows + more)).
    destruct (drawn_succ (rows + more) cols g) as [-> _].
    destruct (drawn_succ rows cols g) as [-> ->].
    rewrite IH. reflexivity.
Qed.

Lemma concat_scale_any (a : list (list F)) (c : F) :
  concat (scale a c) = map (fun x => (x * c)%sc) (concat a).
Proof. unfold scale. symmetry. apply concat_map. Qed.

Lemma scale_app (a b : list (list F)) (c : F) :
  scale (a ++ b) c = scale a c ++ scale b c.
Proof. unfold scale. apply map_app. Qed.

(** X1. On a valid tuple each of the four grids has [height] rows of
    [width] values. *)
Theorem fields_have_the_shape_asked (i : string) (z width height : Z) (g : RandomState) :
  seed_ok (F:=F) (PyInt z) = true -> 0 <= width -> 0 <= height ->
  exists (nf : NoiseField) (g' : RandomState),
    generate i (PyInt z) width height g = (Ok nf, g') /\
    Forall (shaped (Z.to_nat height) (Z.to_nat width)) [luma nf; red nf; green nf; blue nf].
Proof.
  intros Hz Hw Hh. rewrite generate_run by assumption.
  eexists _, _. split; [reflexivity |].
  cbn [assemble luma red green blue].
  repeat (apply List.Forall_cons; [repeat apply scale_shaped; apply drawn_shaped |]).
  apply List.Forall_nil.
Qed.

(** X2. A valid call takes exactly [4 * height * width] draws from the
    generator seeded with [z]: the raw luma, red, green and blue fields,
    read row by row one after the other, are these draws in order, and the
    global generator is left right behind them. *)
Theorem four_fields_are_one_stream (i : string) (z width height : Z) (g : RandomState) :
  seed_ok (F:=F) (PyInt z) = true -> 0 <= width -> 0 <= height ->
  exists l r gr b : list (list F),
    generate i (PyInt z) width height g =
      (Ok (assemble (resolved i) l r gr b),
       after (4 * (Z.to_nat height * Z.to_nat width)) (mt19937_seed z)) /\
    concat l ++ concat r ++ concat gr ++ concat b =
      stream (4 * (Z.to_nat height * Z.to_nat width)) (mt19937_seed z).
Proof.
  intros Hz Hw Hh. rewrite generate_run by assumption.
  set (n := (Z.to_nat height * Z.to_nat width)%nat).
  exists (raw_luma z height width), (raw_red z height width),
         (raw_green z height width), (raw_blue z height width).
  unfold raw_luma, raw_red, raw_green, raw_blue, state4, state3, state2, state1, state0.
  set (g0 := mt19937_seed z).
  destruct (drawn_flat (Z.to_nat height) (Z.to_nat width) g0) as [L1 A1].
  rewrite A1, L1. fold n.
  destruct (drawn_flat (Z.to_nat height) (Z.to_nat width) (after n g0)) as [L2 A2].
  rewrite A2, L2. fold n.
  destruct (drawn_flat (Z.to_nat height) (Z.to_nat width) (after n (after n g0))) as [L3 A3].
  rewrite A3, L3. fold n.
  destruct (drawn_flat (Z.to_nat height) (Z.to_nat width) (after n (after n (after n g0))))
    as [L4 A4].
  rewrite A4, L4. fold n.
  replace (4 * n)%nat with (n + (n + (n + n)))%nat by lia.
  destruct (draws_add n (n + (n + n)) g0) as [-> ->].
  destruct (draws_add n (n + n) (after n g0)) as [-> ->].
  destruct (draws_add n n (after n (after n g0))) as [-> ->].
  split; reflexivity.
Qed.
End StreamLemmas.

Lemma fields_have_the_shape_asked_witness :
  seed_ok (F:=Q) (PyInt 1) = true /\ 0 <= 4 /\ 0 <= 3 /\
  exists (nf : NoiseField) (g' : Z),
    generate_exact "80" (PyInt 1) 4 3 0 = (Ok nf, g') /\
    Forall (shaped 3 4) [luma nf; red nf; green nf; blue nf].
Proof.
  split; [reflexivity |]. split; [lia |]. split; [lia |].
  apply (fields_have_the_shape_asked (rng:=counter_rng) "80" 1 4 3 0); [reflexivity | lia | lia].
Defined.

Lemma four_fields_are_one_stream_witness :
  seed_ok (F:=Q) (PyInt 1) = true /\ 0 <= 4 /\ 0 <= 3 /\
  exists l r gr b : list (list Q),
    generate_exact "80" (PyInt 1) 4 3 0 =
      (Ok (assemble (resolved "80") l r gr b), after (rng:=counter_rng) 48 1) /\
    concat l ++ concat r ++ concat gr ++ concat b = stream (rng:=counter_rng) 48 1.
Proof.
  split; [reflexivity |]. split; [lia |]. split; [lia |].
  apply (four_fields_are_one_stream (rng:=counter_rng) "80" 1 4 3 0); [reflexivity | lia | lia].
Defined.

(** * Reshaping, growing, failing, falling back *)

Section Calls.
Context {F : Type} {sc : Scalar F} {rng : Generator F}.

Lemma raw_fields_flat (z width height : Z) :
  let n := (Z.to_nat height * Z.to_nat width)%nat in
  let g0 := mt19937_seed z in
  concat (raw_luma z height width) = stream n g0 /\
  concat (raw_red z height width) = stream n (after n g0) /\
  concat (raw_green z height width) = stream n (after n (after n g0)) /\
  concat (raw_blue z height width) = stream n (after n (after n (after n g0))) /\
  state4 z height width = after n (after n (after n (after n g0))).
Proof.
  intros n g0.
  unfold raw_luma, raw_red, raw_green, raw_blue, state4, state3, state2, state1, state0.
  fold g0.
  destruct (drawn_flat (Z.to_nat height) (Z.to_nat width) g0) as [L1 ->]. fold n in L1 |- *.
  destruct (drawn_flat (Z.to_nat height) (Z.to_nat width) (after n g0)) as [L2 ->].
  fold n in L2 |- *.
  destruct (drawn_flat (Z.to_nat height) (Z.to_nat width) (after n (after n g0))) as [L3 ->].
  fold n in L3 |- *.
  destruct (drawn_flat (Z.to_nat height) (Z.to_nat width) (after n (after n (after n g0))))
    as [L4 ->].
  fold n in L4 |- *. auto.
Qed.

(** X3. Only the number of values counts: two valid calls with the same
    ISO and seed whose heights and widths have the same product return the
    same values in each of the four fields, read row by row, the same three
    scalars, and leave the global generator in the same state. *)
Theorem same_area_same_values (i : string) (z width height width' height' : Z)
    (g g' : RandomState) :
  seed_ok (F:=F) (PyInt z) = true ->
  0 <= width -> 0 <= height -> 0 <= width' -> 0 <= height' ->
  height * width = height' * width' ->
  exists (nf nf' : NoiseField) (s : RandomState),
    generate i (PyInt z) width height g = (Ok nf, s) /\
    generate i (PyInt z) width' height' g' = (Ok nf', s) /\
    concat (luma nf) = concat (luma nf') /\
    concat (red nf) = concat (red nf') /\
    concat (green nf) = concat (green nf') /\
    concat (blue nf) = concat (blue nf') /\
    nf_size nf = nf_size nf' /\
    nf_roughness nf = nf_roughness nf' /\
    nf_chroma_bias nf = nf_chroma_bias nf'.
Proof.
  intros Hz Hw Hh Hw' Hh' Harea. rewrite !generate_run by assumption.
  assert (Hn : (Z.to_nat height * Z.to_nat width)%nat
               = (Z.to_nat height' * Z.to_nat width')%nat).
  { rewrite <- !Z2Nat.inj_mul by assumption. rewrite Harea. reflexivity. }
  destruct (raw_fields_flat z width height) as (L & R & G & B & S).
  destruct (raw_fields_flat z width' height') as (L' & R' & G' & B' & S').
  cbv zeta in *. rewrite <- Hn in L', R', G', B', S'.
  eexists _, _, _. split; [reflexivity |]. split; [rewrite S, <- S'; reflexivity |].
  cbn [assemble luma red green blue nf_size nf_roughness nf_chroma_bias].
  rewrite !concat_scale_any, L, L', R, R', G, G', B, B'. auto 10.
Qed.

(** X4. A taller field keeps the luma rows of a shorter one: for the same
    ISO, seed and width, the first [height] rows of the luma grid of a call
    with [height + more] rows are the luma grid of the call with [height]
    rows. *)
Theorem luma_rows_are_kept (i : string) (z width height more : Z) (g g' : RandomState) :
  seed_ok (F:=F) (PyInt z) = true -> 0 <= width -> 0 <= height -> 0 <= more ->
  exists nf nf' : NoiseField,
    (generate i (PyInt z) width height g).1 = Ok nf /\
    (generate i (PyInt z) width (height + more) g').1 = Ok nf' /\
    take (Z.to_nat height) (luma nf') = luma nf.
Proof.
  intros Hz Hw Hh Hm. rewrite !generate_run by (assumption || lia).
  eexists _, _. split; [reflexivity |]. split; [reflexivity |].
  cbn [assemble luma]. unfold raw_luma.
  rewrite Z2Nat.inj_add by assumption. rewrite drawn_add, !scale_app.
  apply take_app_length'.
  destruct (drawn_shaped (Z.to_nat height) (Z.to_nat width) (state0 z)) as [Hlen _].
  unfold scale. rewrite !length_map. symmetry. exact Hlen.
Qed.

(** X5. A call that fails on a negative width or height has already
    reseeded the global generator: it raises and leaves the generator
    freshly seeded with [z], nothing drawn. *)
Theorem failed_call_has_reseeded (i : string) (z width height : Z) (g : RandomState) :
  seed_ok (F:=F) (PyInt z) = true -> width < 0 \/ height < 0 ->
  generate i (PyInt z) width height g =
    (Raise (ValueError "negative dimensions"), mt19937_seed z).
Proof.
  intros Hz Hneg. exact (generate_negative i z width height g Hz Hneg).
Qed.

(** X6. An identifier outside the 13 keys is the identifier "800" as far
    as a call goes: same outcome, field or exception, and same state of the
    global generator, for every seed, width and height. *)
Theorem unknown_iso_generates_as_800 (i : string) (s : pyvalue F) (width height : Z)
    (g : RandomState) :
  i ∉ iso_identifiers ->
  generate i s width height g = generate "800" s width height g.
Proof.
  intros Hi. unfold generate, bind. rewrite !init_run.
  assert (Hr : resolved (F:=F) i = resolved "800").
  { unfold resolved at 1, get. rewrite (unknown_iso_absent i Hi). reflexivity. }
  rewrite Hr. reflexivity.
Qed.
End Calls.

Lemma same_area_same_values_witness :
  seed_ok (F:=Q) (PyInt 1) = true /\ 0 <= 4 /\ 0 <= 3 /\ 0 <= 2 /\ 0 <= 6 /\ 3 * 4 = 6 * 2 /\
  exists (nf nf' : NoiseField) (s : Z),
    generate_exact "80" (PyInt 1) 4 3 0 = (Ok nf, s) /\
    generate_exact "80" (PyInt 1) 2 6 9 = (Ok nf', s) /\
    concat (luma nf) = concat (luma nf') /\
    concat (red nf) = concat (red nf') /\
    concat (green nf) = concat (green nf') /\
    concat (blue nf) = concat (blue nf') /\
    nf_size nf = nf_size nf' /\
    nf_roughness nf = nf_roughness nf' /\
    nf_chroma_bias nf = nf_chroma_bias nf'.
Proof.
  split; [reflexivity |]. do 4 (split; [lia |]). split; [reflexivity |].
  apply (same_area_same_values (rng:=counter_rng) "80" 1 4 3 2 6 0 9);
    [reflexivity | lia | lia | lia | lia | reflexivity].
Defined.

Lemma luma_rows_are_kept_witness :
  seed_ok (F:=Q) (PyInt 1) = true /\ 0 <= 4 /\ 0 <= 3 /\ 0 <= 2 /\
  exists nf nf' : NoiseField,
    (generate_exact "80" (PyInt 1) 4 3 0).1 = Ok nf /\
    (generate_exact "80" (PyInt 1) 4 (3 + 2) 9).1 = Ok nf' /\
    take 3 (luma nf') = luma nf.
Proof.
  split; [reflexivity |]. do 3 (split; [lia |]).
  apply (luma_rows_are_kept (rng:=counter_rng) "80" 1 4 3 2 0 9); [reflexivity | lia | lia | lia].
Defined.

Lemma failed_call_has_reseeded_witness :
  seed_ok (F:=Q) (PyInt 5) = true /\ (-1 < 0 \/ 3 < 0) /\
  generate_exact "80" (PyInt 5) (-1) 3 0 = (Raise (ValueError "negative dimensions"), 5).
Proof.
  split; [reflexivity |]. split; [left; lia |].
  apply (failed_call_has_reseeded (rng:=counter_rng) "80" 5 (-1) 3 0); [reflexivity | left; lia].
Defined.

Lemma unknown_iso_generates_as_800_witness :
  ("50"%string ∉ iso_identifiers) /\
  generate_exact "50" (PyInt 1) 2 2 0 = generate_exact "800" (PyInt 1) 2 2 0.
Proof.
  assert (H : "50"%string ∉ iso_identifiers).
  { intros Hin. vm_compute in Hin.
    repeat (apply elem_of_cons in Hin as [Hin | Hin]; [discriminate |]).
    apply elem_of_nil in Hin. exact Hin. }
  split; [exact H |].
  exact (unknown_iso_generates_as_800 (rng:=counter_rng) "50" (PyInt 1) 2 2 0 H).
Defined.

(** * What the interface offers and what the table holds *)

Section Offered.
Context {F : Type} {sc : Scalar F}.

Lemma identifier_cases (id : string) (P : string -> Prop) :
  id ∈ iso_identifiers ->
  P "80"%string -> P "100"%string -> P "200"%string -> P "400"%string -> P "800"%string ->
  P "1600"%string -> P "3200"%string -> P "6400"%string -> P "12800"%string ->
  P "25600"%string -> P "32000"%string -> P "64000"%string -> P "102400"%string ->
  P id.
Proof.
  intros Hin. rewrite iso_identifiers_eq in Hin. intros.
  repeat (apply elem_of_cons in Hin as [-> | Hin]; [assumption |]).
  apply elem_of_nil in Hin. destruct Hin.
Qed.

(** X7. Both ISO selectors of the interface, the camera's and the node's,
    offer the 13 identifiers of [ISO_PRESETS] and default to one of them;
    every identifier offered has a row of its own in [GRAIN_PARAMETERS], so
    that the lookup of [__init__] never falls back for it, whatever the
    default row; and the table holds no row under any other key. *)
Theorem offered_isos_have_their_rows (ep : EnumProperty) (id : string) :
  ep = camera_iso \/ ep = custom_iso ->
  enum_default ep ∈ identifiers (enum_items ep) /\
  (id ∈ identifiers (enum_items ep) ->
     exists p : IsoParameters F,
       GRAIN_PARAMETERS !! id = Some p /\ getitem id = Ok p /\
       forall default : IsoParameters F, get id default = p) /\
  (is_Some (GRAIN_PARAMETERS (F:=F) !! id) -> id ∈ identifiers (enum_items ep)).
Proof.
  intros Hep.
  assert (Hitems : identifiers (enum_items ep) = iso_identifiers)
    by (destruct Hep as [H | H]; rewrite H; reflexivity).
  assert (Hdef : enum_default ep = "800"%string)
    by (destruct Hep as [H | H]; rewrite H; reflexivity).
  rewrite Hitems, Hdef. split; [| split].
  - rewrite iso_identifiers_eq. do 4 apply list_elem_of_further. apply list_elem_of_here.
  - intros Hin. unfold getitem, get.
    apply (identifier_cases id (fun k => exists p : IsoParameters F,
             GRAIN_PARAMETERS !! k = Some p /\
             match GRAIN_PARAMETERS !! k with Some q => Ok q | None => Raise (KeyError k) end = Ok p /\
             forall default : IsoParameters F,
               match GRAIN_PARAMETERS !! k with Some q => q | None => default end = p) Hin);
      (eexists; split; [reflexivity |]; split; [reflexivity | intros; reflexivity]).
  - intros [p Hp]. destruct (decide (id ∈ iso_identifiers)) as [Hin | Hout]; [exact Hin |].
    rewrite (unknown_iso_absent (F:=F) id Hout) in Hp. discriminate.
Qed.
End Offered.

Lemma offered_isos_have_their_rows_witness :
  (custom_iso = camera_iso \/ custom_iso = custom_iso) /\
  enum_default custom_iso ∈ identifiers (enum_items custom_iso) /\
  ("6400"%string ∈ identifiers (enum_items custom_iso) ->
     exists p : IsoParameters Q,
       GRAIN_PARAMETERS !! "6400"%string = Some p /\ getitem "6400" = Ok p /\
       forall default : IsoParameters Q, get "6400" default = p) /\
  (is_Some (GRAIN_PARAMETERS (F:=Q) !! "6400"%string) ->
     "6400"%string ∈ identifiers (enum_items custom_iso)).
Proof.
  split; [right; reflexivity |].
  apply (offered_isos_have_their_rows (F:=Q) custom_iso "6400"). right; reflexivity.
Defined.

(** * Amplitudes, in exact arithmetic *)

Section Amplitudes.
Context {rng : Generator Q}.

Local Open Scope Q_scope.

Lemma resolved_bounds (i : string) :
  let p := resolved (F:=Q) i in
  (0.08 <= intensity p <= 2.30) /\
  (0.32 <= grain_size p <= 0.96) /\
  (0.60 <= roughness p <= 0.98) /\
  (0.03 <= color_influence p <= 0.55) /\
  (0.38 <= luma_influence p <= 0.95) /\
  (0.02 <= chroma_bias p <= 0.52).
Proof.
  cbv zeta. unfold resolved, get.
  destruct (GRAIN_PARAMETERS !! i) as [p|] eqn:E.
  - apply elem_of_list_to_map_2 in E.
    repeat (apply elem_of_cons in E as [E | E];
            [injection E as _ ->; vm_compute; intuition discriminate |]).
    apply elem_of_nil in E. destruct E.
  - vm_compute; intuition discriminate.
Qed.

Lemma luma_scale_bound (i : string) :
  intensity (resolved (F:=Q) i) * luma_influence (resolved i) <= 0.8775.
Proof.
  unfold resolved, get.
  destruct (GRAIN_PARAMETERS !! i) as [p|] eqn:E.
  - apply elem_of_list_to_map_2 in E.
    repeat (apply elem_of_cons in E as [E | E];
            [injection E as _ ->; vm_compute; discriminate |]).
    apply elem_of_nil in E. destruct E.
  - vm_compute; discriminate.
Qed.

Lemma mean_abs_scale_pos (a : list (list Q)) (c : Q) :
  0 <= c -> mean_abs (scale a c) == c * mean_abs a.
Proof. intros Hc. rewrite mean_abs_scale, (Qabs_pos c Hc). reflexivity. Qed.

Lemma color_scale_positive (i : string) :
  0 < color_influence (resolved (F:=Q) i) * intensity (resolved i)
      * (1 - luma_influence (resolved i)).
Proof.
  destruct (resolved_bounds i) as (Hi & _ & _ & Hc & Hl & _). cbv zeta in *.
  apply Qmult_lt_0_compat; [apply Qmult_lt_0_compat |]; lra.
Qed.

Lemma color_scale_monotone (m n : nat) (a b : string) :
  (m <= n)%nat -> iso_identifiers !! m = Some a -> iso_identifiers !! n = Some b ->
  color_influence (resolved (F:=Q) a) * intensity (resolved a) * (1 - luma_influence (resolved a))
  <= color_influence (resolved (F:=Q) b) * intensity (resolved b) * (1 - luma_influence (resolved b)).
Proof.
  intros Hmn Ha Hb. rewrite iso_identifiers_eq in Ha, Hb.
  assert (Hn : (n < 13)%nat) by (apply lookup_lt_Some in Hb; exact Hb).
  do 13 (destruct n as [|n];
    [ do 13 (destruct m as [|m];
        [ first [ exfalso; lia
                | injection Ha as <-; injection Hb as <-; vm_compute; discriminate ] |]);
      exfalso; lia |]).
  exfalso; lia.
Qed.

(** X8. Whatever the identifier, known or not, the parameters a pattern
    resolves stay within the extremes of the table: intensity in
    [0.08, 2.30], size in [0.32, 0.96], roughness in [0.60, 0.98],
    color_influence in [0.03, 0.55], luma_influence in [0.38, 0.95] and
    chroma_bias in [0.02, 0.52]. *)
Theorem resolved_parameters_in_range (i : string) (s : pyvalue Q) (g : RandomState) :
  exists self : FX30GrainPattern,
    init i s g = (Ok self, g) /\
    (0.08 <= intensity (parameters self) <= 2.30) /\
    (0.32 <= grain_size (parameters self) <= 0.96) /\
    (0.60 <= roughness (parameters self) <= 0.98) /\
    (0.03 <= color_influence (parameters self) <= 0.55) /\
    (0.38 <= luma_influence (parameters self) <= 0.95) /\
    (0.02 <= chroma_bias (parameters self) <= 0.52).
Proof.
  rewrite init_run. eexists. split; [reflexivity |]. exact (resolved_bounds i).
Qed.

(** X9. In exact arithmetic the mean absolute value of each field of a
    valid call is that of its raw draw times a positive scale: intensity *
    luma_influence for luma, and for red, green and blue the weights 1.2,
    0.8 and 1.4 times one common scale, color_influence * intensity *
    (1 - luma_influence). *)
Theorem field_means_scale (i : string) (z width height : Z) (g : RandomState) :
  seed_ok (F:=Q) (PyInt z) = true -> (0 <= width)%Z -> (0 <= height)%Z ->
  let p := resolved (F:=Q) i in
  let k := color_influence p * intensity p * (1 - luma_influence p) in
  exists nf : NoiseField,
    (generate i (PyInt z) width height g).1 = Ok nf /\
    0 < intensity p * luma_influence p /\ 0 < k /\
    mean_abs (luma nf) == intensity p * luma_influence p * mean_abs (raw_luma z height width) /\
    mean_abs (red nf) == 1.2 * k * mean_abs (raw_red z height width) /\
    mean_abs (green nf) == 0.8 * k * mean_abs (raw_green z height width) /\
    mean_abs (blue nf) == 1.4 * k * mean_abs (raw_blue z height width).
Proof.
  intros Hz Hw Hh p k. rewrite generate_run by assumption.
  eexists. split; [reflexivity |].
  pose proof (color_scale_positive i) as Hk. fold p in Hk. fold k in Hk.
  destruct (resolved_bounds i) as (Hi & _ & _ & Hc & Hl & _). cbv zeta in Hi, Hc, Hl.
  fold p in Hi, Hc, Hl.
  split; [apply Qmult_lt_0_compat; lra |]. split; [exact Hk |].
  cbn [assemble luma red green blue]. fold p.
  change (lit 1 - luma_influence p)%sc with (1 - luma_influence p).
  change (lit 1.2) with 1.2. change (lit 0.8) with 0.8. change (lit 1.4) with 1.4.
  rewrite !mean_abs_scale_pos by lra. unfold k. repeat split; ring.
Qed.

(** X10. In exact arithmetic the luma amplitude peaks at ISO "64000", not
    at the highest ISO: for one seed, width and height, no identifier gives
    a larger mean absolute luma than "64000", and, when the luminance draw
    is not zero everywhere, "102400" gives a smaller one. *)
Theorem luma_mean_peaks_at_64000 (i : string) (z width height : Z) (g1 g2 g3 : RandomState) :
  seed_ok (F:=Q) (PyInt z) = true -> (0 <= width)%Z -> (0 <= height)%Z ->
  exists nf nf64000 nf102400 : NoiseField,
    (generate i (PyInt z) width height g1).1 = Ok nf /\
    (generate "64000" (PyInt z) width height g2).1 = Ok nf64000 /\
    (generate "102400" (PyInt z) width height g3).1 = Ok nf102400 /\
    mean_abs (luma nf) <= mean_abs (luma nf64000) /\
    (Exists (Exists (fun x => ~ x == 0)) (raw_luma z height width) ->
     mean_abs (luma nf102400) < mean_abs (luma nf64000)).
Proof.
  intros Hz Hw Hh. rewrite !generate_run by assumption.
  eexists _, _, _. split; [reflexivity |]. split; [reflexivity |]. split; [reflexivity |].
  cbn [assemble luma fst].
  destruct (resolved_bounds i) as (Hi & _ & _ & _ & Hl & _). cbv zeta in Hi, Hl.
  pose proof (luma_scale_bound i) as Hb.
  pose proof (mean_abs_nonneg (raw_luma z height width)) as Hm.
  rewrite !mean_abs_scale_pos by (lra || (vm_compute; discriminate)).
  set (m := mean_abs (raw_luma z height width)) in *.
  change (intensity (resolved "64000")) with 1.95.
  change (luma_influence (resolved "64000")) with 0.45.
  change (intensity (resolved "102400")) with 2.30.
  change (luma_influence (resolved "102400")) with 0.38.
  set (a := intensity (resolved i)) in *. set (b := luma_influence (resolved i)) in *.
  split.
  - assert (a * b * m <= 0.8775 * m) by (apply Qmult_le_compat_r; assumption). lra.
  - intros Hraw. pose proof (mean_abs_positive _ Hraw) as Hpos. fold m in Hpos. lra.
Qed.

(** X11. In exact arithmetic the colour amplitude never decreases with the
    ISO: for one seed, width and height and two identifiers in ISO order,
    the mean absolute red, green and blue of the higher ISO are at least
    those of the lower. *)
Theorem color_means_grow_with_iso (m n : nat) (a b : string) (z width height : Z)
    (g1 g2 : RandomState) :
  (m <= n)%nat -> iso_identifiers !! m = Some a -> iso_identifiers !! n = Some b ->
  seed_ok (F:=Q) (PyInt z) = true -> (0 <= width)%Z -> (0 <= height)%Z ->
  exists nfa nfb : NoiseField,
    (generate a (PyInt z) width height g1).1 = Ok nfa /\
    (generate b (PyInt z) width height g2).1 = Ok nfb /\
    mean_abs (red nfa) <= mean_abs (red nfb) /\
    mean_abs (green nfa) <= mean_abs (green nfb) /\
    mean_abs (blue nfa) <= mean_abs (blue nfb).
Proof.
  intros Hmn Ha Hb Hz Hw Hh. rewrite !generate_run by assumption.
  eexists _, _. split; [reflexivity |]. split; [reflexivity |].
  pose proof (color_scale_monotone m n a b Hmn Ha Hb) as Hk.
  pose proof (color_scale_positive a) as Hka. pose proof (color_scale_positive b) as Hkb.
  destruct (resolved_bounds a) as (Hia & _ & _ & Hca & Hla & _).
  destruct (resolved_bounds b) as (Hib & _ & _ & Hcb & Hlb & _).
  cbv zeta in Hia, Hca, Hla, Hib, Hcb, Hlb.
  pose proof (mean_abs_nonneg (raw_red z height width)) as Hr.
  pose proof (mean_abs_nonneg (raw_green z height width)) as Hg.
  pose proof (mean_abs_nonneg (raw_blue z height width)) as Hbl.
  cbn [assemble luma red green blue fst].
  change (@lit Q exact 1) with 1. change (lit 1.2) with 1.2.
  change (lit 0.8) with 0.8. change (lit 1.4) with 1.4.
  change (@sub Q exact) with Qminus.
  rewrite !mean_abs_scale_pos by lra.
  set (ka := color_influence (resolved a) * intensity (resolved a)
             * (1 - luma_influence (resolved a))) in *.
  set (kb := color_influence (resolved b) * intensity (resolved b)
             * (1 - luma_influence (resolved b))) in *.
  assert (Hmul : forall w x, 0 <= w -> 0 <= x -> w * ka * x <= w * kb * x).
  { intros w x Hw0 Hx0. apply Qmult_le_compat_r; [| exact Hx0].
    rewrite !(Qmult_comm w). apply Qmult_le_compat_r; assumption. }
  repeat split.
  - specialize (Hmul 1.2 _ ltac:(lra) Hr). unfold ka, kb in Hmul. lra.
  - specialize (Hmul 0.8 _ ltac:(lra) Hg). unfold ka, kb in Hmul. lra.
  - specialize (Hmul 1.4 _ ltac:(lra) Hbl). unfold ka, kb in Hmul. lra.
Qed.
End Amplitudes.

Lemma field_means_scale_witness :
  seed_ok (F:=Q) (PyInt 1) = true /\ 0 <= 2 /\ 0 <= 2 /\
  exists nf : NoiseField,
    (generate_exact "3200" (PyInt 1) 2 2 0).1 = Ok nf /\
    (0 < intensity (resolved "3200") * luma_influence (resolved "3200"))%Q /\
    (0 < color_influence (resolved "3200") * intensity (resolved "3200")
         * (1 - luma_influence (resolved "3200")))%Q /\
    (mean_abs (luma nf) ==
       intensity (resolved "3200") * luma_influence (resolved "3200")
       * mean_abs (raw_luma (rng:=counter_rng) 1 2 2))%Q /\
    (mean_abs (red nf) ==
       1.2 * (color_influence (resolved "3200") * intensity (resolved "3200")
              * (1 - luma_influence (resolved "3200")))
       * mean_abs (raw_red (rng:=counter_rng) 1 2 2))%Q /\
    (mean_abs (green nf) ==
       0.8 * (color_influence (resolved "3200") * intensity (resolved "3200")
              * (1 - luma_influence (resolved "3200")))
       * mean_abs (raw_green (rng:=counter_rng) 1 2 2))%Q /\
    (mean_abs (blue nf) ==
       1.4 * (color_influence (resolved "3200") * intensity (resolved "3200")
              * (1 - luma_influence (resolved "3200")))
       * mean_abs (raw_blue (rng:=counter_rng) 1 2 2))%Q.
Proof.
  split; [reflexivity |]. split; [lia |]. split; [lia |].
  apply (field_means_scale (rng:=counter_rng) "3200" 1 2 2 0); [reflexivity | lia | lia].
Defined.

Lemma luma_mean_peaks_at_64000_witness :
  seed_ok (F:=Q) (PyInt 1) = true /\ 0 <= 2 /\ 0 <= 2 /\
  exists nf nf64000 nf102400 : NoiseField,
    (generate_exact "25600" (PyInt 1) 2 2 0).1 = Ok nf /\
    (generate_exact "64000" (PyInt 1) 2 2 0).1 = Ok nf64000 /\
    (generate_exact "102400" (PyInt 1) 2 2 0).1 = Ok nf102400 /\
    (mean_abs (luma nf) <= mean_abs (luma nf64000))%Q /\
    (Exists (Exists (fun x => ~ x == 0)%Q) (raw_luma (rng:=counter_rng) 1 2 2) ->
     (mean_abs (luma nf102400) < mean_abs (luma nf64000))%Q).
Proof.
  split; [reflexivity |]. split; [lia |]. split; [lia |].
  apply (luma_mean_peaks_at_64000 (rng:=counter_rng) "25600" 1 2 2 0 0 0); [reflexivity | lia | lia].
Defined.

Lemma color_means_grow_with_iso_witness :
  (4 <= 9)%nat /\ iso_identifiers !! 4%nat = Some "800"%string /\
  iso_identifiers !! 9%nat = Some "25600"%string /\
  seed_ok (F:=Q) (PyInt 1) = true /\ 0 <= 2 /\ 0 <= 2 /\
  exists nfa nfb : NoiseField,
    (generate_exact "800" (PyInt 1) 2 2 0).1 = Ok nfa /\
    (generate_exact "25600" (PyInt 1) 2 2 0).1 = Ok nfb /\
    (mean_abs (red nfa) <= mean_abs (red nfb))%Q /\
    (mean_abs (green nfa) <= mean_abs (green nfb))%Q /\
    (mean_abs (blue nfa) <= mean_abs (blue nfb))%Q.
Proof.
  split; [lia |]. split; [reflexivity |]. split; [reflexivity |]. split; [reflexivity |].
  split; [lia |]. split; [lia |].
  apply (color_means_grow_with_iso (rng:=counter_rng) 4 9 "800" "25600" 1 2 2 0 0);
    [lia | reflexivity | reflexivity | reflexivity | lia | lia].
Defined.

(** * The cameras offered by the node *)

Lemma camera_override_identifiers (objects : list Object) :
  identifiers (camera_override_items objects) =
    (name <$> filter (λ obj, type obj = "CAMERA"%string) objects) ++ ["NONE"%string].
Proof.
  unfold identifiers, camera_override_items. rewrite fmap_app, <- list_fmap_compose. reflexivity.
Qed.

(** X12. Whatever objects the scene holds, the camera selector of the node
    offers "NONE" and the names of the objects of type CAMERA, and nothing
    else; its default, "NONE", is always on offer, last in the list. *)
Theorem camera_override_offers_the_cameras (objects : list Object) (id : string) :
  (id ∈ identifiers (enum_items (camera_override objects)) <->
     id = "NONE"%string \/
     exists obj : Object, obj ∈ objects /\ type obj = "CAMERA"%string /\ name obj = id) /\
  enum_default (camera_override objects) ∈ identifiers (enum_items (camera_override objects)) /\
  last (identifiers (enum_items (camera_override objects)))
    = Some (enum_default (camera_override objects)) /\
  length (enum_items (camera_override objects))
    = S (length (filter (λ obj, type obj = "CAMERA"%string) objects)).
Proof.
  cbn [camera_override enum_items enum_default].
  rewrite camera_override_identifiers. split; [| split; [| split]].
  - rewrite elem_of_app, list_elem_of_fmap, list_elem_of_singleton. split.
    + intros [(obj & -> & Hobj) | ->]; [right | left; reflexivity].
      apply list_elem_of_filter in Hobj as [Hty Hin]. eauto.
    + intros [-> | (obj & Hin & Hty & <-)]; [right; reflexivity | left].
      exists obj. split; [reflexivity |]. apply list_elem_of_filter. auto.
  - apply elem_of_app. right. apply list_elem_of_here.
  - apply last_snoc.
  - unfold camera_override_items. rewrite length_app, length_fmap. simpl. lia.
Qed.

(** X13. The identifiers the camera selector offers are all different
    exactly when no two cameras share a name and no camera is named
    "NONE"; a camera named "NONE" cannot be told from the active-camera
    entry. *)
Theorem camera_override_identifiers_distinct (objects : list Object) :
  NoDup (identifiers (enum_items (camera_override objects))) <->
  NoDup (name <$> filter (λ obj, type obj = "CAMERA"%string) objects) /\
  ~ exists obj : Object, obj ∈ objects /\ type obj = "CAMERA"%string /\ name obj = "NONE"%string.
Proof.
  cbn [camera_override enum_items]. rewrite camera_override_identifiers.
  rewrite NoDup_app. split.
  - intros (Hnd & Hnone & _). split; [exact Hnd |].
    intros (obj & Hin & Hty & Hname). apply (Hnone "NONE"%string).
    + apply list_elem_of_fmap. exists obj. split; [symmetry; exact Hname |].
      apply list_elem_of_filter. auto.
    + apply list_elem_of_here.
  - intros [Hnd Hnone]. split; [exact Hnd |]. split; [| apply NoDup_singleton].
    intros x Hx Hx'. apply list_elem_of_singleton in Hx'. subst x.
    apply list_elem_of_fmap in Hx as (obj & Hname & Hobj).
    apply list_elem_of_filter in Hobj as [Hty Hin]. apply Hnone. eauto.
Qed.

(** * Registration *)

#[local] Set Warnings "-clear-no-such-hyp".


Lemma register_class_new (cls : string) (h : blender) :
  cls ∉ classes h -> declares_refused_enum cls = false ->
  register_class cls h =
    Done {| classes := {[cls]} ∪ classes h;
            camera_fx30_grain := camera_fx30_grain h;
            NODE_MT_add := NODE_MT_add h |}.
Proof.
  intros H Hok. unfold register_class. rewrite decide_False by exact H.
  cbv zeta. rewrite Hok. reflexivity.
Qed.


Lemma register_class_old (cls : string) (h : blender) :
  cls ∈ classes h -> register_class cls h = Failed (AlreadyRegistered cls) h.
Proof. intros H. unfold register_class. rewrite decide_True by exact H. reflexivity. Qed.



Ltac host_step :=
  cbn [and_then register_camera_property menu_append menu_remove
       classes camera_fx30_grain NODE_MT_add].



(** X15. [register] does not roll back: when the settings class is new to
    Blender but the node class is already registered, [register] raises on
    the node class and leaves behind the settings class registered and
    [Camera.fx30_grain] set; the group, the panel and the menu entry are
    never reached. *)
Theorem register_leaves_a_partial_state (h : blender) :
  "FX30GrainCameraSettings"%string ∉ classes h ->
  "FX30GrainMatchNode"%string ∈ classes h ->
  register h =
    Failed (AlreadyRegistered "FX30GrainMatchNode")
      {| classes := {["FX30GrainCameraSettings"%string]} ∪ classes h;
         camera_fx30_grain := Some "FX30GrainCameraSettings"%string;
         NODE_MT_add := NODE_MT_add h |}.
Proof.
  intros Hnew Hold. unfold register. rewrite (register_class_new _ h Hnew eq_refl). host_step.
  rewrite register_class_old by (host_step; set_solver). reflexivity.
Qed.




Lemma register_leaves_a_partial_state_witness :
  let h := {| classes := {["FX30GrainMatchNode"%string]};
              camera_fx30_grain := None;
              NODE_MT_add := [] |} in
  ("FX30GrainCameraSettings"%string ∉ classes h) /\
  ("FX30GrainMatchNode"%string ∈ classes h) /\
  register h =
    Failed (AlreadyRegistered "FX30GrainMatchNode")
      {| classes := {["FX30GrainCameraSettings"%string]} ∪ classes h;
         camera_fx30_grain := Some "FX30GrainCameraSettings"%string;
         NODE_MT_add := NODE_MT_add h |}.
Proof.
  assert (H1 : "FX30GrainCameraSettings"%string ∉ ({["FX30GrainMatchNode"%string]} : gset string))
    by set_solver.
  assert (H2 : "FX30GrainMatchNode"%string ∈ ({["FX30GrainMatchNode"%string]} : gset string))
    by set_solver.
  split; [exact H1 |]. split; [exact H2 |].
  exact (register_leaves_a_partial_state
           {| classes := {["FX30GrainMatchNode"%string]};
              camera_fx30_grain := None; NODE_MT_add := [] |} H1 H2).
Defined.

